(** * Trade-exit simulation engine of backtesting.py

    A shallow embedding of [fetch_all_stock_data], [get_valid_entry_date],
    [process_stock], [run_backtest] and [generate_backtest_summary], and of
    [calculate_rsi] of step2v3.py, which computes the [rsi_value] the signals
    carry; with the properties the specification states about them and
    further properties read off the code.

    Numbers.  The close prices are PostgreSQL FLOAT columns read into
    float64.  Finite float64 values are idealised here as exact rationals
    ([Q]); rounding error, NaN prices and division by a zero price are
    outside the model.  The values that pandas produces for empty or
    degenerate aggregates (NaN, inf, [None], the string sentinel) are
    modelled explicitly in the summary, where the behaviour depends on them.
    Where a stated value depends on the rounding itself, the simulation of
    one candidate is also given in binary64 (module [F64], on the kernel's
    primitive floats) and evaluated there.

    Dates.  The [date] column is a PostgreSQL DATE and (stock_symbol, date) is
    the primary key of [stock_data]; after [pd.to_datetime] every index entry
    is a midnight timestamp.  A date is therefore a whole day number ([Z]),
    [pd.Timedelta(days=i)] is subtraction of [i], and [.days] of a difference
    of two dates is the difference of the day numbers. *)

From Stdlib Require Import ZArith QArith Qround Qminmax Qabs Lqa Lia List Bool String Permutation Sorted.
From Stdlib Require Import PrimFloat.
From stdpp Require Import base option gmap strings.
Import ListNotations.

Local Open Scope Z_scope.
Local Open Scope Q_scope.

(** ** Data model *)

(** One row of a per-symbol frame: the index entry and its [close_price]. *)
Definition price_row : Type := (Z * Q)%type.

(** [df_stock]: the rows of one symbol, in index order (the query orders by
    stock_symbol, date). *)
Definition price_series : Type := list price_row.

(** The index of a frame. *)
Definition index (df_stock : price_series) : list Z := List.map fst df_stock.

(** One row of [high_volume_weeks]. *)
Record signal_row : Type := mk_signal_row {
  stock_symbol : string;
  week_end_date : Z;
  volume_multiple : Q;
  rsi_value : Q;
  weekly_volume : Z
}.

(** The value of the "Profit or Loss" column. *)
Inductive outcome : Type := Profit | Loss.

Definition outcome_eqb (a b : outcome) : bool :=
  match a, b with
  | Profit, Profit | Loss, Loss => true
  | _, _ => false
  end.

(** The 12-element list [process_stock] returns, by column name. *)
Record trade : Type := mk_trade {
  t_stock : string;
  entry_date : Z;
  entry_price : Q;
  exit_date : Z;
  exit_price : Q;
  profit_loss : Q;
  profit_loss_pct : Q;
  profit_or_loss : outcome;
  days_in_trade : Z;
  t_volume_multiple : Q;
  t_rsi_value : Q;
  t_weekly_volume : Z
}.

(** ** Comparisons on prices *)

(** [a >= b] *)
Definition Qgeb (a b : Q) : bool := Qle_bool b a.

(** [a > b] *)
Definition Qgtb (a b : Q) : bool :=
  match Qcompare a b with
  | Gt => true
  | _ => false
  end.

(** ** get_valid_entry_date *)

(** [date in df_stock.index] *)
Definition in_index (date : Z) (df_stock : price_series) : bool :=
  existsb (Z.eqb date) (index df_stock).

(** [df_stock.loc[date, "close_price"]] on a frame whose index is unique: the
    close price of the row labelled [date]. *)
Fixpoint loc_close_price (df_stock : price_series) (date : Z) : option Q :=
  match df_stock with
  | [] => None
  | (d, p) :: rest => if Z.eqb date d then Some p else loc_close_price rest date
  end.

(** [[week_end_date - pd.Timedelta(days=i) for i in range(3)]] *)
Definition possible_days (week_end_date : Z) : list Z :=
  List.map (fun i => (week_end_date - Z.of_nat i)%Z) (seq 0 3).

(** The [for date in possible_days] loop: the first candidate found in the
    index is returned with its close price.  A date that is in the index has
    a row, so the inner [None] is never reached ([loc_close_price_present]). *)
Fixpoint first_present (df_stock : price_series) (days : list Z) : option (Z * Q) :=
  match days with
  | [] => None
  | date :: rest =>
      if in_index date df_stock then
        match loc_close_price df_stock date with
        | Some p => Some (date, p)
        | None => None
        end
      else first_present df_stock rest
  end.

(** [None] stands for the pair [(None, None)]. *)
Definition get_valid_entry_date (df_stock : price_series) (week_end_date : Z)
  : option (Z * Q) :=
  first_present df_stock (possible_days week_end_date).

(** ** process_stock *)

Definition target1 (entry_price : Q) : Q := entry_price * 1.15.
Definition target2 (entry_price : Q) : Q := entry_price * 1.25.
Definition target3 (entry_price : Q) : Q := entry_price * 1.35.
Definition initial_stop_loss (entry_price : Q) : Q := entry_price * 0.7.

(** The three assignments under "Update trailing stop-loss", in program
    order; each [if] is evaluated whatever the others did. *)
Definition update_stop_loss (entry_price stop_loss price : Q) : Q :=
  let stop_loss :=
    if Qgeb price (target1 entry_price) then entry_price * 1.01 else stop_loss in
  let stop_loss :=
    if Qgeb price (target2 entry_price) then target1 entry_price else stop_loss in
  let stop_loss :=
    if Qgeb price (target3 entry_price) then target2 entry_price else stop_loss in
  stop_loss.

(** [price <= stop_loss or price >= target3] *)
Definition exit_condition (entry_price stop_loss price : Q) : bool :=
  Qle_bool price stop_loss || Qgeb price (target3 entry_price).

(** The [for date, row in future_data.iterrows()] loop.  The second component
    is [(exit_date, exit_price)], [None] when the loop ends without [break].
    The first component is a ghost history: the value of [stop_loss] after
    the update of each day the loop evaluated, oldest first. *)
Fixpoint scan_exits (entry_price stop_loss : Q) (future_data : price_series)
  : list Q * option (Z * Q) :=
  match future_data with
  | [] => ([], None)
  | (date, price) :: rest =>
      let stop_loss := update_stop_loss entry_price stop_loss price in
      if exit_condition entry_price stop_loss price then
        ([stop_loss], Some (date, price))
      else
        let '(history, found) := scan_exits entry_price stop_loss rest in
        (stop_loss :: history, found)
  end.

(** [df_stock[df_stock.index > entry_date]] *)
Definition future_data (df_stock : price_series) (entry_date : Z) : price_series :=
  List.filter (fun r => Z.ltb entry_date (fst r)) df_stock.

(** The stop-loss levels of one simulation, day by day. *)
Definition stop_loss_history (entry_price : Q) (future : price_series) : list Q :=
  fst (scan_exits entry_price (initial_stop_loss entry_price) future).

(** The exit found by one simulation. *)
Definition find_exit (entry_price : Q) (future : price_series) : option (Z * Q) :=
  snd (scan_exits entry_price (initial_stop_loss entry_price) future).

(** "Calculate profit/loss" and the returned list. *)
Definition make_trade (row : signal_row) (entry_date : Z) (entry_price : Q)
    (exit_date : Z) (exit_price : Q) : trade :=
  let profit_loss := exit_price - entry_price in
  let profit_loss_pct := ((exit_price / entry_price) - 1) * 100 in
  let profit_or_loss := if Qgtb profit_loss 0 then Profit else Loss in
  let days_in_trade := (exit_date - entry_date)%Z in
  mk_trade (stock_symbol row) entry_date entry_price exit_date exit_price
           profit_loss profit_loss_pct profit_or_loss days_in_trade
           (volume_multiple row) (rsi_value row) (weekly_volume row).

(** [process_stock(row, stock_data_dict)]; [None] is Python's [None]. *)
Definition process_stock (row : signal_row) (stock_data_dict : gmap string price_series)
  : option trade :=
  match stock_data_dict !! stock_symbol row with
  | None => None
  | Some df_stock =>
      match get_valid_entry_date df_stock (week_end_date row) with
      | None => None
      | Some (entry_date, entry_price) =>
          match find_exit entry_price (future_data df_stock entry_date) with
          | None => None
          | Some (exit_date, exit_price) =>
              Some (make_trade row entry_date entry_price exit_date exit_price)
          end
      end
  end.

(** ** run_backtest: collecting the results *)

(** The body of [for future in as_completed(futures)]: a result that is not
    [None] is appended to [results]. *)
Fixpoint collect_results (completed : list (option trade)) (results : list trade)
  : list trade :=
  match completed with
  | [] => results
  | None :: rest => collect_results rest results
  | Some result :: rest => collect_results rest (results ++ [result])
  end.

(** One future is submitted per row of [high_vol_weeks]; [as_completed]
    yields every future once, in the order the pool finishes them.
    [completion_order] lists the rows in that order. *)
Definition run_backtest_results (stock_data_dict : gmap string price_series)
    (completion_order : list signal_row) : list trade :=
  collect_results
    (List.map (fun row => process_stock row stock_data_dict) completion_order) [].

(** The results that are not [None], in order. *)
Definition produced (completed : list (option trade)) : list trade :=
  flat_map (fun r => match r with Some t => [t] | None => [] end) completed.

(** ** generate_backtest_summary *)

(** A float64 as the aggregates can produce it. *)
Inductive float64 : Type :=
  | Fin (q : Q)
  | NaN
  | Inf (negative : bool).

(** The Python values that reach [round]. *)
Inductive py_value : Type :=
  | PyInt (z : Z)
  | PyFloat (x : float64)
  | PyNone
  | PyStr (s : string).

Inductive py_exception : Type := TypeError.

Inductive py_result (A : Type) : Type :=
  | Returned (a : A)
  | Raised (e : py_exception).
Arguments Returned {A} a.
Arguments Raised {A} e.

Definition py_bind {A B : Type} (m : py_result A) (k : A -> py_result B)
  : py_result B :=
  match m with
  | Returned a => k a
  | Raised e => Raised e
  end.

Notation "'let!' x ':=' m 'in' k" := (py_bind m (fun x => k))
  (at level 10, x name, m at level 100, k at level 200).

(** The dictionary [summary], by key. *)
Record summary : Type := mk_summary {
  total_trades : Z;
  win_ratio_pct : py_value;
  avg_profit_pct : py_value;
  avg_loss_pct : py_value;
  max_drawdown_pct : py_value;
  profit_factor : py_value;
  risk_reward_ratio : py_value
}.

Definition Qsum (l : list Q) : Q := fold_left Qplus l 0.

Definition Qmin_list (l : list Q) : float64 :=
  match l with
  | [] => NaN
  | x :: rest => Fin (fold_left Qmin rest x)
  end.

(** [Series.mean()]: NaN on an empty selection. *)
Definition mean (l : list Q) : float64 :=
  match l with
  | [] => NaN
  | _ => Fin (Qsum l / inject_Z (Z.of_nat (List.length l)))
  end.

Definition is_zero (q : Q) : bool := Qeq_bool q 0.

(** float64 division as numpy performs it: no exception, inf or NaN on a zero
    divisor. *)
Definition f64_div (a b : float64) : float64 :=
  match a, b with
  | NaN, _ | _, NaN => NaN
  | Inf _, Inf _ => NaN
  | Inf s, Fin y => Inf (xorb s (Qgtb 0 y))
  | Fin _, Inf _ => Fin 0
  | Fin x, Fin y =>
      if is_zero y then (if is_zero x then NaN else Inf (Qgtb 0 x))
      else Fin (x / y)
  end.

Definition f64_abs (a : float64) : float64 :=
  match a with
  | Fin x => Fin (Qabs x)
  | NaN => NaN
  | Inf _ => Inf false
  end.

(** Truth value of a float64 in [if x]: only zero is false (NaN is true). *)
Definition f64_truthy (a : float64) : bool :=
  match a with
  | Fin x => negb (is_zero x)
  | _ => true
  end.

(** Nearest integer, ties to even. *)
Definition round_half_even (q : Q) : Z :=
  let f := Qfloor q in
  let r := q - inject_Z f in
  match Qcompare r (1 # 2) with
  | Lt => f
  | Gt => (f + 1)%Z
  | Eq => if Z.even f then f else (f + 1)%Z
  end.

(** Rounding to two decimals. *)
Definition round2 (q : Q) : Q := inject_Z (round_half_even (q * 100)) / 100.

(** [round(v, 2)]: numbers are rounded; [None] and [str] have no
    [__round__] and raise TypeError. *)
Definition py_round2 (v : py_value) : py_result py_value :=
  match v with
  | PyInt z => Returned (PyInt z)
  | PyFloat (Fin q) => Returned (PyFloat (Fin (round2 q)))
  | PyFloat x => Returned (PyFloat x)
  | PyNone => Raised TypeError
  | PyStr _ => Raised TypeError
  end.

Definition select (o : outcome) (df : list trade) : list trade :=
  List.filter (fun t => outcome_eqb (profit_or_loss t) o) df.

(** [generate_backtest_summary(df)]: the dictionary it writes out, or the
    exception it raises before writing anything. *)
Definition generate_backtest_summary (df : list trade) : py_result summary :=
  let total_trades := Z.of_nat (List.length df) in
  let wins := select Profit df in
  let losses := select Loss df in
  let win_ratio :=
    if Z.eqb total_trades 0 then PyInt 0
    else PyFloat (Fin (inject_Z (Z.of_nat (List.length wins))
                       / inject_Z total_trades * 100)) in
  let avg_profit_pct := mean (List.map profit_loss_pct wins) in
  let avg_loss_pct := mean (List.map profit_loss_pct losses) in
  let avg_days_profit := mean (List.map (fun t => inject_Z (days_in_trade t)) wins) in
  let avg_days_loss := mean (List.map (fun t => inject_Z (days_in_trade t)) losses) in
  let risk_reward_ratio :=
    if f64_truthy avg_loss_pct
    then PyFloat (f64_abs (f64_div avg_profit_pct avg_loss_pct))
    else PyNone in
  let max_drawdown := Qmin_list (List.map profit_loss_pct df) in
  let profit_factor :=
    match losses with
    | [] => PyStr "N/A"
    | _ => PyFloat (f64_div (Fin (Qsum (List.map profit_loss wins)))
                            (f64_abs (Fin (Qsum (List.map profit_loss losses)))))
    end in
  let! r_win := py_round2 win_ratio in
  let! r_profit := py_round2 (PyFloat avg_profit_pct) in
  let! r_loss := py_round2 (PyFloat avg_loss_pct) in
  let! r_drawdown := py_round2 (PyFloat max_drawdown) in
  let! r_factor := py_round2 profit_factor in
  let! r_ratio := py_round2 risk_reward_ratio in
  Returned (mk_summary total_trades r_win r_profit r_loss r_drawdown r_factor r_ratio).

(** ** fetch_all_stock_data *)

(** One row of the result of
    [SELECT stock_symbol, date, close_price FROM stock_data ORDER BY
    stock_symbol, date]. *)
Record stock_data_row : Type := mk_stock_data_row {
  sd_symbol : string;
  sd_date : Z;
  sd_close_price : Q
}.

(** [df.index.get_level_values("stock_symbol").unique()]: the distinct
    symbols, each at its first appearance. *)
Fixpoint unique (symbols : list string) : list string :=
  match symbols with
  | [] => []
  | s :: rest => s :: List.filter (fun x => negb (String.eqb x s)) (unique rest)
  end.

(** [df.xs(symbol, level="stock_symbol")]: the rows of [symbol], in order,
    indexed by date. *)
Definition xs (symbol : string) (rows : list stock_data_row) : price_series :=
  List.map (fun r => (sd_date r, sd_close_price r))
           (List.filter (fun r => String.eqb (sd_symbol r) symbol) rows).

(** The dictionary comprehension [{symbol: df.xs(symbol, ...) for symbol in
    ...unique()}]. *)
Definition build_stock_data_dict (rows : list stock_data_row)
  : gmap string price_series :=
  list_to_map (List.map (fun s => (s, xs s rows)) (unique (List.map sd_symbol rows))).

(** [fetch_all_stock_data()].  [query_result] is what the database gave:
    [None] when the connection or [pd.read_sql] failed, in which case the
    function returns [None]. *)
Definition fetch_all_stock_data (query_result : option (list stock_data_row))
  : option (gmap string price_series) :=
  match query_result with
  | None => None
  | Some rows => Some (build_stock_data_dict rows)
  end.

(** The order the query leaves the rows in, as far as one symbol is
    concerned: of two rows of the same symbol the earlier one has the earlier
    date (ORDER BY stock_symbol, date over the primary key). *)
Definition ordered_by_date (rows : list stock_data_row) : Prop :=
  StronglySorted
    (fun r1 r2 => sd_symbol r1 = sd_symbol r2 -> (sd_date r1 < sd_date r2)%Z) rows.

(** A frame whose index increases strictly. *)
Definition increasing_index (df_stock : price_series) : Prop :=
  StronglySorted (fun r1 r2 : price_row => (fst r1 < fst r2)%Z) df_stock.

(** ** run_backtest as a whole *)

(** What a run leaves behind. *)
Inductive run_report : Type :=
  | Aborted
      (* a fetch returned None: the function returns, nothing is written *)
  | Completed (detailed_results : list trade) (summary_outcome : py_result summary)
      (* detailed_backtest_results.csv was written with these rows, then
         generate_backtest_summary returned or raised *).

(** [run_backtest()].  The two query results stand for the database;
    [completion_order] is the order in which the pool finished the submitted
    rows. *)
Definition run_backtest (stock_query : option (list stock_data_row))
    (weeks_query : option (list signal_row))
    (completion_order : list signal_row -> list signal_row) : run_report :=
  match fetch_all_stock_data stock_query with
  | None => Aborted
  | Some stock_data_dict =>
      match weeks_query with
      | None => Aborted
      | Some high_vol_weeks =>
          let results :=
            run_backtest_results stock_data_dict (completion_order high_vol_weeks) in
          Completed results (generate_backtest_summary results)
      end
  end.

(** ** The simulation of one candidate in binary64 *)

(** Lines 97 to 129 of [process_stock] with the arithmetic the program runs:
    IEEE 754 binary64, every operation rounded to nearest.  The decimal
    constants denote the nearest binary64 value, as Python's literals do. *)
#[local] Set Warnings "-inexact-float".

Module F64.

Definition price_series : Type := list (Z * float).

(** What [process_stock] computes once the entry is known. *)
Record trade_outcome : Type := mk_trade_outcome {
  exit_date : Z;
  exit_price : float;
  profit_loss : float;
  profit_loss_pct : float;
  profit_or_loss : outcome;
  days_in_trade : Z
}.

Definition target1 (entry_price : float) : float := (entry_price * 1.15)%float.
Definition target2 (entry_price : float) : float := (entry_price * 1.25)%float.
Definition target3 (entry_price : float) : float := (entry_price * 1.35)%float.
Definition initial_stop_loss (entry_price : float) : float :=
  (entry_price * 0.7)%float.

(** [a >= b] *)
Definition geb (a b : float) : bool := PrimFloat.leb b a.

Definition update_stop_loss (entry_price stop_loss price : float) : float :=
  let stop_loss :=
    if geb price (target1 entry_price) then (entry_price * 1.01)%float
    else stop_loss in
  let stop_loss :=
    if geb price (target2 entry_price) then target1 entry_price else stop_loss in
  let stop_loss :=
    if geb price (target3 entry_price) then target2 entry_price else stop_loss in
  stop_loss.

Definition exit_condition (entry_price stop_loss price : float) : bool :=
  PrimFloat.leb price stop_loss || geb price (target3 entry_price).

(** The loop, with the ghost history of stop-loss levels. *)
Fixpoint scan_exits (entry_price stop_loss : float) (future_data : price_series)
  : list float * option (Z * float) :=
  match future_data with
  | [] => ([], None)
  | (date, price) :: rest =>
      let stop_loss := update_stop_loss entry_price stop_loss price in
      if exit_condition entry_price stop_loss price then
        ([stop_loss], Some (date, price))
      else
        let '(history, found) := scan_exits entry_price stop_loss rest in
        (stop_loss :: history, found)
  end.

(** From "Define targets and stop-loss" to [days_in_trade]. *)
Definition simulate (entry_date : Z) (entry_price : float)
    (future_data : price_series) : option trade_outcome :=
  match snd (scan_exits entry_price (initial_stop_loss entry_price) future_data) with
  | None => None
  | Some (exit_date, exit_price) =>
      let profit_loss := (exit_price - entry_price)%float in
      let profit_loss_pct := (((exit_price / entry_price) - 1) * 100)%float in
      let profit_or_loss :=
        if PrimFloat.ltb 0%float profit_loss then Profit else Loss in
      let days_in_trade := (exit_date - entry_date)%Z in
      Some (mk_trade_outcome exit_date exit_price profit_loss profit_loss_pct
                             profit_or_loss days_in_trade)
  end.

End F64.

(** The closes 90, 116, 69 on the three days after an entry on day 0. *)
Definition falling_path_f64 : F64.price_series :=
  [(1%Z, 90%float); (2%Z, 116%float); (3%Z, 69%float)].

(** ** calculate_rsi (step2v3.py), the source of [rsi_value] *)

Definition f64_neg (a : float64) : float64 :=
  match a with
  | Fin x => Fin (- x)
  | NaN => NaN
  | Inf s => Inf (negb s)
  end.

Definition f64_add (a b : float64) : float64 :=
  match a, b with
  | NaN, _ | _, NaN => NaN
  | Inf s, Inf s' => if Bool.eqb s s' then Inf s else NaN
  | Inf s, Fin _ | Fin _, Inf s => Inf s
  | Fin x, Fin y => Fin (x + y)
  end.

Definition f64_sub (a b : float64) : float64 := f64_add a (f64_neg b).

(** [prices.diff()] from the second entry on. *)
Fixpoint diff_from (previous : Q) (prices : list Q) : list float64 :=
  match prices with
  | [] => []
  | p :: rest => Fin (p - previous) :: diff_from p rest
  end.

(** [prices.diff()]: NaN first, then the change from the entry before. *)
Definition diff (prices : list Q) : list float64 :=
  match prices with
  | [] => []
  | p :: rest => NaN :: diff_from p rest
  end.

(** [delta.where(cond, 0)] entry by entry: the entry where the condition
    holds, 0 elsewhere; a comparison with NaN is false. *)
Definition where_or_zero (cond : Q -> bool) (x : float64) : Q :=
  match x with
  | Fin q => if cond q then q else 0
  | _ => 0
  end.

(** [.rolling(window).mean()]: [recent] holds the latest entries, newest
    first; until [window] entries have been seen the mean is NaN. *)
Fixpoint rolling_mean_from (window : nat) (recent values : list Q) : list float64 :=
  match values with
  | [] => []
  | v :: rest =>
      let recent := firstn window (v :: recent) in
      (if Nat.eqb (List.length recent) window then mean recent else NaN)
      :: rolling_mean_from window recent rest
  end.

Definition rolling_mean (window : nat) (values : list Q) : list float64 :=
  rolling_mean_from window [] values.

(** [100 - (100 / (1 + gain / loss))] for one position. *)
Definition rsi_of (gain loss : float64) : float64 :=
  let rs := f64_div gain loss in
  f64_sub (Fin 100) (f64_div (Fin 100) (f64_add (Fin 1) rs)).

(** [calculate_rsi(prices, window)] on a series of finite prices. *)
Definition calculate_rsi (prices : list Q) (window : nat) : list float64 :=
  let delta := diff prices in
  let gain :=
    rolling_mean window (List.map (where_or_zero (fun q => Qgtb q 0)) delta) in
  let loss :=
    rolling_mean window
      (List.map (fun x => - where_or_zero (fun q => Qgtb 0 q) x) delta) in
  List.map (fun gl => rsi_of (fst gl) (snd gl)) (combine gain loss).

(** ** The transition rule in the specification's words *)



(** A history of levels that never goes down: every entry is at least every
    earlier one. *)
Definition non_decreasing (levels : list Q) : Prop :=
  forall (i j : nat) (a b : Q),
    (i <= j)%nat -> nth_error levels i = Some a -> nth_error levels j = Some b ->
    a <= b.

(** The levels the stop-loss can have on a day the walk goes on from. *)
Definition open_level (entry_price stop_loss : Q) : Prop :=
  stop_loss = initial_stop_loss entry_price
  \/ stop_loss = entry_price * 1.01
  \/ stop_loss = target1 entry_price.

(** ** Sample data *)

(** Entry at 100 on day 0, then the closes 90, 116, 69. *)
Definition falling_frame : price_series :=
  [(0%Z, 100); (1%Z, 90); (2%Z, 116); (3%Z, 69)].

(** Entry at 100 on day 0, no rows on days 1 and 2, then the closes 120, 130,
    140. *)
Definition rising_frame : price_series :=
  [(0%Z, 100); (3%Z, 120); (4%Z, 130); (5%Z, 140)].

(** Entry at 100 on day 0, then the closes 130, 120, 110. *)
Definition sagging_frame : price_series :=
  [(0%Z, 100); (1%Z, 130); (2%Z, 120); (3%Z, 110)].

Definition sample_dict : gmap string price_series :=
  {[ "FALL"%string := falling_frame; "RISE"%string := rising_frame;
     "SAG"%string := sagging_frame ]}.

Definition falling_row : signal_row := mk_signal_row "FALL" 0 3 62 150000.
Definition rising_row : signal_row := mk_signal_row "RISE" 2 4 71 90000.
Definition unknown_row : signal_row := mk_signal_row "NONE" 0 2 55 1000.

Definition falling_trade : trade := make_trade falling_row 0 100 3 69.
Definition rising_trade : trade := make_trade rising_row 0 100 5 140.

(** The query result that holds the falling and the rising frame. *)
Definition sample_stock_rows : list stock_data_row :=
  [ mk_stock_data_row "FALL" 0 100; mk_stock_data_row "FALL" 1 90;
    mk_stock_data_row "FALL" 2 116; mk_stock_data_row "FALL" 3 69;
    mk_stock_data_row "RISE" 0 100; mk_stock_data_row "RISE" 3 120;
    mk_stock_data_row "RISE" 4 130; mk_stock_data_row "RISE" 5 140 ].

(** * Properties *)

(** ** Comparisons *)

Lemma Qgeb_iff (a b : Q) : Qgeb a b = true <-> b <= a.
Proof. unfold Qgeb. apply Qle_bool_iff. Qed.

Lemma Qgeb_false_iff (a b : Q) : Qgeb a b = false <-> a < b.
Proof.
  rewrite <- not_true_iff_false, Qgeb_iff. split.
  - apply Qnot_le_lt.
  - apply Qlt_not_le.
Qed.

Lemma Qgtb_iff (a b : Q) : Qgtb a b = true <-> b < a.
Proof.
  unfold Qgtb. rewrite (Qgt_alt a b).
  destruct (Qcompare a b); split; congruence.
Qed.


(** ** The entry lookup *)

Lemma in_index_iff (date : Z) (df_stock : price_series) :
  in_index date df_stock = true <-> In date (index df_stock).
Proof.
  unfold in_index. rewrite existsb_exists. split.
  - intros [d [Hin Heq]]. apply Z.eqb_eq in Heq. now subst.
  - intros Hin. exists date. split; [assumption | apply Z.eqb_refl].
Qed.

Lemma loc_close_price_In (df_stock : price_series) (date : Z) (p : Q) :
  loc_close_price df_stock date = Some p -> In (date, p) df_stock.
Proof.
  induction df_stock as [| [d q] rest IH]; simpl; [discriminate |].
  destruct (Z.eqb_spec date d) as [-> | Hne].
  - intros [= ->]. now left.
  - intros H. right. now apply IH.
Qed.

Lemma loc_close_price_present (df_stock : price_series) (date : Z) :
  In date (index df_stock) -> exists p, loc_close_price df_stock date = Some p.
Proof.
  induction df_stock as [| [d q] rest IH]; simpl; [contradiction |].
  intros [Heq | Hin].
  - subst. rewrite Z.eqb_refl. now exists q.
  - destruct (Z.eqb date d); [now exists q | now apply IH].
Qed.

(** On a unique index a label selects one row. *)
Lemma unique_index_row (df_stock : price_series) (date : Z) (p q : Q) :
  List.NoDup (index df_stock) ->
  In (date, p) df_stock -> In (date, q) df_stock -> p = q.
Proof.
  induction df_stock as [| [d r] rest IH]; simpl; [contradiction |].
  intros Hnd Hp Hq. inversion Hnd as [| ? ? Hnotin Hrest]; subst.
  assert (Hfst : forall x, In (d, x) rest -> False).
  { intros x Hx. apply Hnotin. unfold index.
    change d with (fst (d, x)). now apply in_map. }
  destruct Hp as [Hp | Hp]; destruct Hq as [Hq | Hq].
  - congruence.
  - inversion Hp; subst. exfalso. eauto.
  - inversion Hq; subst. exfalso. eauto.
  - now apply IH.
Qed.

Lemma possible_days_eq (week_end_date : Z) :
  possible_days week_end_date
  = [week_end_date; (week_end_date - 1)%Z; (week_end_date - 2)%Z].
Proof.
  unfold possible_days. simpl. now rewrite Z.sub_0_r.
Qed.

(** ** The exit scan *)

Lemma scan_exits_found_in (entry_price : Q) (future : price_series) :
  forall stop_loss date price,
    snd (scan_exits entry_price stop_loss future) = Some (date, price) ->
    In (date, price) future.
Proof.
  induction future as [| [d p] rest IH]; intros stop_loss date price; simpl.
  - discriminate.
  - destruct (exit_condition _ _ p).
    + simpl. intros [= <- <-]. now left.
    + destruct (scan_exits entry_price _ rest) as [history found] eqn:Hscan.
      simpl. intros Hfound. right.
      apply (IH (update_stop_loss entry_price stop_loss p)).
      now rewrite Hscan.
Qed.

(** The day the loop breaks on satisfies the exit test against the stop-loss
    in force after that day's update, the last level of the history. *)
Lemma scan_exits_found_exits (entry_price : Q) (future : price_series) :
  forall stop_loss date price,
    snd (scan_exits entry_price stop_loss future) = Some (date, price) ->
    exists level,
      last (fst (scan_exits entry_price stop_loss future)) = Some level /\
      exit_condition entry_price level price = true.
Proof.
  induction future as [| [d p] rest IH]; intros stop_loss date price; simpl.
  - discriminate.
  - destruct (exit_condition _ _ p) eqn:Hexit.
    + simpl. intros [= <- <-]. eexists. split; [reflexivity | exact Hexit].
    + destruct (scan_exits entry_price _ rest) as [history found] eqn:Hscan.
      simpl. intros Hfound.
      destruct (IH (update_stop_loss entry_price stop_loss p) date price)
        as [level [Hlast Hlevel]]; [now rewrite Hscan |].
      rewrite Hscan in Hlast. simpl in Hlast.
      exists level. split; [| exact Hlevel].
      rewrite last_cons, Hlast. reflexivity.
Qed.

Lemma future_data_after (df_stock : price_series) (entry_date date : Z) (price : Q) :
  In (date, price) (future_data df_stock entry_date) ->
  (entry_date < date)%Z /\ In (date, price) df_stock.
Proof.
  unfold future_data. rewrite filter_In. simpl.
  intros [Hin Hlt]. apply Z.ltb_lt in Hlt. now split.
Qed.

(** ** What a returned trade is made of *)

Lemma process_stock_Some (row : signal_row)
    (stock_data_dict : gmap string price_series) (t : trade) :
  process_stock row stock_data_dict = Some t ->
  exists df_stock e_date e_price x_date x_price,
    stock_data_dict !! stock_symbol row = Some df_stock /\
    get_valid_entry_date df_stock (week_end_date row) = Some (e_date, e_price) /\
    find_exit e_price (future_data df_stock e_date) = Some (x_date, x_price) /\
    t = make_trade row e_date e_price x_date x_price.
Proof.
  unfold process_stock.
  destruct (stock_data_dict !! stock_symbol row) as [df_stock |]; [| discriminate].
  destruct (get_valid_entry_date df_stock (week_end_date row))
    as [[e_date e_price] |] eqn:Hentry; [| discriminate].
  destruct (find_exit e_price (future_data df_stock e_date))
    as [[x_date x_price] |] eqn:Hexit; [| discriminate].
  intros [= <-]. exists df_stock, e_date, e_price, x_date, x_price.
  repeat split; assumption.
Qed.

Lemma process_stock_exit_after_entry (row : signal_row)
    (stock_data_dict : gmap string price_series) (t : trade) :
  process_stock row stock_data_dict = Some t ->
  (entry_date t < exit_date t)%Z.
Proof.
  intros H.
  destruct (process_stock_Some _ _ _ H)
    as (df_stock & e_date & e_price & x_date & x_price & _ & _ & Hexit & ->).
  simpl. unfold find_exit in Hexit.
  apply scan_exits_found_in in Hexit.
  now apply future_data_after in Hexit.
Qed.


(** ** Claims on the simulator *)



(** C4: a returned trade has profit_loss = exit_price - entry_price,
    profit_loss_pct = (exit_price / entry_price - 1) * 100 (for a non-zero
    entry price, where the division is defined), days_in_trade = exit_date -
    entry_date in days, and is labelled Profit exactly when profit_loss > 0;
    a profit_loss of zero is labelled Loss. *)
Theorem process_stock_outcome (row : signal_row)
    (stock_data_dict : gmap string price_series) (t : trade) :
  process_stock row stock_data_dict = Some t ->
  profit_loss t = exit_price t - entry_price t
  /\ (~ entry_price t == 0 ->
      profit_loss_pct t = (exit_price t / entry_price t - 1) * 100)
  /\ days_in_trade t = (exit_date t - entry_date t)%Z
  /\ (profit_or_loss t = Profit <-> 0 < profit_loss t)
  /\ (profit_loss t == 0 -> profit_or_loss t = Loss).
Proof.
  intros H.
  destruct (process_stock_Some _ _ _ H)
    as (df_stock & e_date & e_price & x_date & x_price & _ & _ & _ & ->).
  simpl. repeat split; try reflexivity.
  - destruct (Qgtb (x_price - e_price) 0) eqn:Hgt; [| discriminate].
    intros _. now apply Qgtb_iff.
  - intros Hpos. apply Qgtb_iff in Hpos. now rewrite Hpos.
  - intros Hzero.
    destruct (Qgtb (x_price - e_price) 0) eqn:Hgt; [| reflexivity].
    apply Qgtb_iff in Hgt. rewrite Hzero in Hgt.
    exfalso. exact (Qlt_irrefl 0 Hgt).
Qed.

Lemma process_stock_outcome_witness :
  process_stock falling_row sample_dict = Some falling_trade
  /\ profit_loss falling_trade = exit_price falling_trade - entry_price falling_trade
  /\ profit_loss_pct falling_trade
     = (exit_price falling_trade / entry_price falling_trade - 1) * 100
  /\ days_in_trade falling_trade = 3%Z
  /\ profit_or_loss falling_trade = Loss.
Proof.
  assert (H : process_stock falling_row sample_dict = Some falling_trade)
    by (vm_compute; reflexivity).
  destruct (process_stock_outcome falling_row sample_dict falling_trade H)
    as (Hpl & Hpct & Hdays & _ & _).
  split; [exact H |].
  split; [exact Hpl |].
  split; [apply Hpct; vm_compute; discriminate |].
  split; [rewrite Hdays; reflexivity | reflexivity].
Defined.

(** C7: a returned trade has its exit date strictly after its entry date and
    a non-negative number of days held. *)
Theorem process_stock_exit_later (row : signal_row)
    (stock_data_dict : gmap string price_series) (t : trade) :
  process_stock row stock_data_dict = Some t ->
  (exit_date t > entry_date t)%Z /\ (days_in_trade t >= 0)%Z.
Proof.
  intros H.
  pose proof (process_stock_exit_after_entry _ _ _ H) as Hlt.
  destruct (process_stock_Some _ _ _ H)
    as (df_stock & e_date & e_price & x_date & x_price & _ & _ & _ & ->).
  simpl in *. lia.
Qed.

Lemma process_stock_exit_later_witness :
  process_stock falling_row sample_dict = Some falling_trade
  /\ (exit_date falling_trade > entry_date falling_trade)%Z
  /\ (days_in_trade falling_trade >= 0)%Z.
Proof.
  assert (H : process_stock falling_row sample_dict = Some falling_trade)
    by (vm_compute; reflexivity).
  split; [exact H |].
  exact (process_stock_exit_later falling_row sample_dict falling_trade H).
Defined.

(** C9: a returned trade was held for at least one day. *)
Theorem process_stock_days_positive (row : signal_row)
    (stock_data_dict : gmap string price_series) (t : trade) :
  process_stock row stock_data_dict = Some t ->
  (1 <= days_in_trade t)%Z.
Proof.
  intros H.
  pose proof (process_stock_exit_after_entry _ _ _ H) as Hlt.
  destruct (process_stock_Some _ _ _ H)
    as (df_stock & e_date & e_price & x_date & x_price & _ & _ & _ & ->).
  simpl in *. lia.
Qed.

Lemma process_stock_days_positive_witness :
  process_stock rising_row sample_dict = Some rising_trade
  /\ (1 <= days_in_trade rising_trade)%Z.
Proof.
  assert (H : process_stock rising_row sample_dict = Some rising_trade)
    by (vm_compute; reflexivity).
  split; [exact H |].
  exact (process_stock_days_positive rising_row sample_dict rising_trade H).
Defined.

(** C10: with a positive entry price, a trade whose exit close reached
    entry_price * 1.35 is labelled Profit. *)
Theorem process_stock_target_exit_profit (row : signal_row)
    (stock_data_dict : gmap string price_series) (t : trade) :
  process_stock row stock_data_dict = Some t ->
  0 < entry_price t ->
  entry_price t * 1.35 <= exit_price t ->
  profit_or_loss t = Profit.
Proof.
  intros H.
  destruct (process_stock_Some _ _ _ H)
    as (df_stock & e_date & e_price & x_date & x_price & _ & _ & _ & ->).
  simpl. intros Hpos Htarget.
  assert (Hgt : Qgtb (x_price - e_price) 0 = true).
  { apply Qgtb_iff. lra. }
  now rewrite Hgt.
Qed.

Lemma process_stock_target_exit_profit_witness :
  process_stock rising_row sample_dict = Some rising_trade
  /\ 0 < entry_price rising_trade
  /\ entry_price rising_trade * 1.35 <= exit_price rising_trade
  /\ profit_or_loss rising_trade = Profit.
Proof.
  assert (H : process_stock rising_row sample_dict = Some rising_trade)
    by (vm_compute; reflexivity).
  assert (Hpos : 0 < entry_price rising_trade) by (vm_compute; reflexivity).
  assert (Htarget : entry_price rising_trade * 1.35 <= exit_price rising_trade)
    by (vm_compute; discriminate).
  split; [exact H |]. split; [exact Hpos |]. split; [exact Htarget |].
  exact (process_stock_target_exit_profit rising_row sample_dict rising_trade
           H Hpos Htarget).
Defined.

(** In exact arithmetic: entry at 100 and the closes 90, 116, 69.  The walk
    passes day 1 (stop-loss 70) and day 2 (stop-loss raised to 101) and breaks
    on day 3 at 69; the trade is a Loss with profit_loss -31 and a percentage
    of exactly -31. *)
Example scenario_falling_path :
  exists level1 level2 level3 : Q,
    scan_exits 100 (initial_stop_loss 100) [(1%Z, 90); (2%Z, 116); (3%Z, 69)]
    = ([level1; level2; level3], Some (3%Z, 69))
    /\ level1 == 70 /\ level2 == 101
    /\ process_stock falling_row sample_dict = Some falling_trade
    /\ entry_price falling_trade == 100
    /\ exit_date falling_trade = 3%Z
    /\ exit_price falling_trade == 69
    /\ profit_or_loss falling_trade = Loss
    /\ profit_loss falling_trade == -31
    /\ profit_loss_pct falling_trade == -31.
Proof.
  do 3 eexists.
  split; [vm_compute; reflexivity |].
  repeat split; vm_compute; reflexivity.
Qed.

(** The program's own arithmetic does not give -31.0 for the percentage of
    that trade: in binary64, (69 / 100 - 1) * 100 is not -31. *)
Lemma scenario_falling_path_pct_inexact :
  exists r,
    F64.simulate 0 100%float falling_path_f64 = Some r
    /\ F64.profit_loss_pct r <> (-31)%float.
Proof.
  eexists. split; [vm_compute; reflexivity |].
  simpl. intros Heq.
  apply (f_equal (fun x => PrimFloat.eqb x (-31)%float)) in Heq.
  vm_compute in Heq. discriminate Heq.
Qed.

(** C6, as the program computes it: entry at 100 and the closes 90, 116, 69.
    The walk passes day 1 (stop-loss 70) and day 2 (stop-loss raised to 101)
    and breaks on day 3 at 69; the trade is a Loss held 3 days with
    profit_loss -31 and profit_loss_pct -31.000000000000007, the binary64
    value two units in the last place below -31. *)
Theorem scenario_falling_path_float64 :
  exists r,
    F64.scan_exits 100%float (F64.initial_stop_loss 100%float) falling_path_f64
    = ([70%float; 101%float; 101%float], Some (3%Z, 69%float))
    /\ F64.simulate 0 100%float falling_path_f64 = Some r
    /\ F64.exit_date r = 3%Z
    /\ F64.exit_price r = 69%float
    /\ F64.profit_or_loss r = Loss
    /\ F64.days_in_trade r = 3%Z
    /\ F64.profit_loss r = (-31)%float
    /\ F64.profit_loss_pct r = (-0x1.f000000000002p+4)%float
    /\ PrimFloat.ltb (PrimFloat.abs (F64.profit_loss_pct r + 31)%float)
                     0x1p-46%float = true.
Proof.
  eexists. split; [vm_compute; reflexivity |].
  split; [vm_compute; reflexivity |].
  repeat split; vm_compute; reflexivity.
Qed.

(** The second scenario of the specification: entry at 100 and the closes
    120, 130, 140 give the levels 101, 115, 125 and a Profit of 40 percent
    on the third day. *)
Example scenario_rising_path :
  exists level1 level2 level3 : Q,
    scan_exits 100 (initial_stop_loss 100) (future_data rising_frame 0)
    = ([level1; level2; level3], Some (5%Z, 140))
    /\ level1 == 101 /\ level2 == 115 /\ level3 == 125
    /\ process_stock rising_row sample_dict = Some rising_trade
    /\ profit_or_loss rising_trade = Profit
    /\ profit_loss_pct rising_trade == 40.
Proof.
  do 3 eexists.
  split; [vm_compute; reflexivity |].
  repeat split; vm_compute; reflexivity.
Qed.

(** A close above all three targets takes the stop-loss through the three
    levels in one day. *)
Example update_stop_loss_through_all_levels :
  update_stop_loss 100 (initial_stop_loss 100) 140 == 125.
Proof. vm_compute. reflexivity. Qed.

(** ** Claims on the entry lookup *)

(** C5: on a frame with a unique index, the lookup tries week_end_date,
    week_end_date - 1 and week_end_date - 2 in that order and returns the
    first of them that is in the index, with the close price of its row; when
    none of the three is in the index it returns nothing. *)
Theorem get_valid_entry_date_first_present (df_stock : price_series)
    (week_end_date : Z) :
  List.NoDup (index df_stock) ->
  possible_days week_end_date
  = [week_end_date; (week_end_date - 1)%Z; (week_end_date - 2)%Z]
  /\
  match get_valid_entry_date df_stock week_end_date with
  | Some (date, price) =>
      In (date, price) df_stock
      /\ (forall q, In (date, q) df_stock -> q = price)
      /\ (date = week_end_date
          \/ (date = (week_end_date - 1)%Z
              /\ ~ In week_end_date (index df_stock))
          \/ (date = (week_end_date - 2)%Z
              /\ ~ In week_end_date (index df_stock)
              /\ ~ In (week_end_date - 1)%Z (index df_stock)))
  | None =>
      ~ In week_end_date (index df_stock)
      /\ ~ In (week_end_date - 1)%Z (index df_stock)
      /\ ~ In (week_end_date - 2)%Z (index df_stock)
  end.
Proof.
  intros Hunique. split; [apply possible_days_eq |].
  assert (Hhit : forall date,
             in_index date df_stock = true ->
             exists p, loc_close_price df_stock date = Some p
                       /\ In (date, p) df_stock
                       /\ (forall q, In (date, q) df_stock -> q = p)).
  { intros date Hin. apply in_index_iff in Hin.
    destruct (loc_close_price_present _ _ Hin) as [p Hp].
    exists p. split; [exact Hp |].
    pose proof (loc_close_price_In _ _ _ Hp) as Hrow.
    split; [exact Hrow |].
    intros q Hq. exact (unique_index_row _ _ _ _ Hunique Hq Hrow). }
  assert (Hmiss : forall date,
             in_index date df_stock = false -> ~ In date (index df_stock)).
  { intros date Hout Hin. apply in_index_iff in Hin. congruence. }
  unfold get_valid_entry_date. rewrite possible_days_eq. simpl.
  destruct (in_index week_end_date df_stock) eqn:H0.
  { destruct (Hhit _ H0) as (p & Hp & Hrow & Hone). rewrite Hp.
    split; [exact Hrow |]. split; [exact Hone |]. now left. }
  apply Hmiss in H0.
  destruct (in_index (week_end_date - 1) df_stock) eqn:H1.
  { destruct (Hhit _ H1) as (p & Hp & Hrow & Hone). rewrite Hp.
    split; [exact Hrow |]. split; [exact Hone |]. right. left. now split. }
  apply Hmiss in H1.
  destruct (in_index (week_end_date - 2) df_stock) eqn:H2.
  { destruct (Hhit _ H2) as (p & Hp & Hrow & Hone). rewrite Hp.
    split; [exact Hrow |]. split; [exact Hone |]. right. right. now repeat split. }
  apply Hmiss in H2. now repeat split.
Qed.

Lemma get_valid_entry_date_first_present_witness :
  List.NoDup (index rising_frame)
  /\ get_valid_entry_date rising_frame 2 = Some (0%Z, 100)
  /\ In (0%Z, 100) rising_frame
  /\ get_valid_entry_date rising_frame 8 = None.
Proof.
  assert (Hunique : List.NoDup (index rising_frame)).
  { repeat (apply List.NoDup_cons; [simpl; lia |]). apply List.NoDup_nil. }
  split; [exact Hunique |].
  pose proof (proj2 (get_valid_entry_date_first_present rising_frame 2 Hunique)) as Hfound.
  pose proof (proj2 (get_valid_entry_date_first_present rising_frame 8 Hunique)) as Hnone.
  split; [reflexivity |].
  split; [exact (proj1 Hfound) | reflexivity].
Defined.

(** ** The stop-loss over the days of one simulation *)

(** After any day the stop-loss is the previous one or one of the three
    raised levels. *)
Lemma update_stop_loss_levels (entry_price stop_loss price : Q) :
  update_stop_loss entry_price stop_loss price = stop_loss
  \/ update_stop_loss entry_price stop_loss price = entry_price * 1.01
  \/ update_stop_loss entry_price stop_loss price = target1 entry_price
  \/ update_stop_loss entry_price stop_loss price = target2 entry_price.
Proof.
  unfold update_stop_loss.
  destruct (Qgeb price (target3 entry_price)); [auto |].
  destruct (Qgeb price (target2 entry_price)); [auto |].
  destruct (Qgeb price (target1 entry_price)); auto.
Qed.

(** A close between target1 and target2 sets the stop-loss to
    entry_price * 1.01 whatever it was before. *)
Lemma update_stop_loss_resets (entry_price stop_loss price : Q) :
  target1 entry_price <= price -> price < target2 entry_price ->
  0 <= entry_price ->
  update_stop_loss entry_price stop_loss price = entry_price * 1.01.
Proof.
  intros H1 H2 Hpos. unfold update_stop_loss.
  assert (Hge1 : Qgeb price (target1 entry_price) = true)
    by now apply Qgeb_iff.
  assert (Hge2 : Qgeb price (target2 entry_price) = false)
    by now apply Qgeb_false_iff.
  assert (Hge3 : Qgeb price (target3 entry_price) = false).
  { apply Qgeb_false_iff. unfold target2, target3 in *. lra. }
  now rewrite Hge1, Hge2, Hge3.
Qed.

(** C1: the stop-loss is not non-decreasing.  Entry at 100 and the closes
    130, 120: day 1 raises the stop-loss to 115, day 2 sets it to 101. *)
Theorem stop_loss_history_lowered :
  exists level1 level2 : Q,
    stop_loss_history 100 [(1%Z, 130); (2%Z, 120)] = [level1; level2]
    /\ level1 == 115 /\ level2 == 101
    /\ ~ non_decreasing (stop_loss_history 100 [(1%Z, 130); (2%Z, 120)]).
Proof.
  do 2 eexists. split; [vm_compute; reflexivity |].
  split; [vm_compute; reflexivity |].
  split; [vm_compute; reflexivity |].
  intros Hmono.
  pose proof (Hmono 0%nat 1%nat _ _ (le_S _ _ (le_n 0)) eq_refl eq_refl) as Hle.
  vm_compute in Hle. apply Hle. reflexivity.
Qed.

(** The lowered stop-loss changes the result: after 130 and 120 a close of
    110 is below the 115 reached on day 1, yet the walk goes on and, the data
    ending there, no trade is returned. *)
Example sagging_position_kept_open :
  scan_exits 100 (initial_stop_loss 100) (future_data sagging_frame 0)
  = ([100 * 1.15; 100 * 1.01; 100 * 1.01], None)
  /\ process_stock (mk_signal_row "SAG" 0 2 58 4000) sample_dict = None.
Proof. split; vm_compute; reflexivity. Qed.

(** ** Claims on the runner *)

Lemma collect_results_produced (completed : list (option trade)) :
  forall results,
    collect_results completed results = results ++ produced completed.
Proof.
  induction completed as [| [t |] rest IH]; intros results; simpl.
  - now rewrite app_nil_r.
  - rewrite IH, <- app_assoc. reflexivity.
  - apply IH.
Qed.

Lemma produced_Permutation (c1 c2 : list (option trade)) :
  Permutation c1 c2 -> Permutation (produced c1) (produced c2).
Proof.
  induction 1 as [| r l1 l2 _ IH | r1 r2 l | l1 l2 l3 _ IH1 _ IH2]; simpl.
  - apply perm_nil.
  - now apply Permutation_app_head.
  - destruct r1, r2; simpl; try apply Permutation_refl. apply perm_swap.
  - now apply perm_trans with (produced l2).
Qed.

(** C8: two runs over the same rows and the same price data return the same
    trades up to order, whatever order the pool completes the rows in. *)
Theorem run_backtest_order_independent
    (stock_data_dict : gmap string price_series)
    (high_vol_weeks order1 order2 : list signal_row) :
  Permutation high_vol_weeks order1 ->
  Permutation high_vol_weeks order2 ->
  Permutation (run_backtest_results stock_data_dict order1)
              (run_backtest_results stock_data_dict order2).
Proof.
  intros H1 H2. unfold run_backtest_results.
  rewrite !collect_results_produced. simpl.
  apply produced_Permutation, Permutation_map.
  apply perm_trans with high_vol_weeks; [now apply Permutation_sym | exact H2].
Qed.

Lemma run_backtest_order_independent_witness :
  Permutation [falling_row; unknown_row; rising_row]
              [rising_row; falling_row; unknown_row]
  /\ Permutation [falling_row; unknown_row; rising_row]
                 [unknown_row; rising_row; falling_row]
  /\ Permutation
       (run_backtest_results sample_dict [rising_row; falling_row; unknown_row])
       (run_backtest_results sample_dict [unknown_row; rising_row; falling_row]).
Proof.
  assert (H1 : Permutation [falling_row; unknown_row; rising_row]
                           [rising_row; falling_row; unknown_row]).
  { apply perm_trans with [falling_row; rising_row; unknown_row].
    - apply perm_skip, perm_swap.
    - apply perm_swap. }
  assert (H2 : Permutation [falling_row; unknown_row; rising_row]
                           [unknown_row; rising_row; falling_row]).
  { apply perm_trans with [unknown_row; falling_row; rising_row].
    - apply perm_swap.
    - apply perm_skip, perm_swap. }
  split; [exact H1 |]. split; [exact H2 |].
  exact (run_backtest_order_independent sample_dict _ _ _ H1 H2).
Defined.

(** ** Claims on the summary *)

(** Without a losing trade [profit_factor] is the string sentinel, which
    [round] rejects. *)
Lemma summary_without_losses_raises (df : list trade) :
  select Loss df = [] -> generate_backtest_summary df = Raised TypeError.
Proof.
  intros Hnone. unfold generate_backtest_summary. rewrite Hnone. simpl.
  destruct (Z.of_nat (List.length df) =? 0)%Z; simpl;
    destruct (mean (List.map profit_loss_pct (select Profit df))) as [q | | s];
    simpl;
    destruct (Qmin_list (List.map profit_loss_pct df)) as [m | | s'];
    reflexivity.
Qed.

(** C2: on an empty trade list the summary is not produced: [round] raises
    TypeError on the profit factor. *)
Theorem generate_backtest_summary_empty_raises :
  generate_backtest_summary [] = Raised TypeError.
Proof. reflexivity. Qed.

(** A trade list with wins only fails the same way. *)
Example summary_of_one_win_raises :
  generate_backtest_summary [rising_trade] = Raised TypeError.
Proof. apply summary_without_losses_raises. reflexivity. Qed.

(** With a loss whose percentage is not zero the summary is produced. *)
Example summary_of_one_loss_returns :
  exists s, generate_backtest_summary [falling_trade] = Returned s
            /\ total_trades s = 1%Z.
Proof. eexists. split; vm_compute; reflexivity. Qed.

(** * Further properties of the simulator *)

(** The four values the stop-loss can take for an entry price. *)
Lemma scan_exits_levels (entry_price : Q) (future : price_series) :
  forall stop_loss level,
    (stop_loss = initial_stop_loss entry_price
     \/ stop_loss = entry_price * 1.01
     \/ stop_loss = target1 entry_price
     \/ stop_loss = target2 entry_price) ->
    In level (fst (scan_exits entry_price stop_loss future)) ->
    level = initial_stop_loss entry_price
    \/ level = entry_price * 1.01
    \/ level = target1 entry_price
    \/ level = target2 entry_price.
Proof.
  induction future as [| [d p] rest IH]; intros stop_loss level Hstart; simpl.
  - contradiction.
  - assert (Hnext : update_stop_loss entry_price stop_loss p
                    = initial_stop_loss entry_price
                    \/ update_stop_loss entry_price stop_loss p = entry_price * 1.01
                    \/ update_stop_loss entry_price stop_loss p = target1 entry_price
                    \/ update_stop_loss entry_price stop_loss p = target2 entry_price).
    { destruct (update_stop_loss_levels entry_price stop_loss p)
        as [-> | [-> | [-> | ->]]]; auto. }
    destruct (exit_condition _ _ p).
    + simpl. intros [<- | []]. exact Hnext.
    + destruct (scan_exits entry_price _ rest) as [history found] eqn:Hscan.
      simpl. intros [<- | Hin]; [exact Hnext |].
      apply (IH _ level Hnext). now rewrite Hscan.
Qed.

(** X1: whatever the closes, every stop-loss level of a simulation is one of
    entry_price * 0.7, * 1.01, * 1.15, * 1.25; for a non-negative entry price
    it therefore never leaves the band from the initial stop-loss to
    target2. *)
Theorem stop_loss_history_levels (entry_price : Q) (future : price_series)
    (level : Q) :
  In level (stop_loss_history entry_price future) ->
  (level = entry_price * 0.7 \/ level = entry_price * 1.01
   \/ level = entry_price * 1.15 \/ level = entry_price * 1.25)
  /\ (0 <= entry_price ->
      initial_stop_loss entry_price <= level /\ level <= target2 entry_price).
Proof.
  unfold stop_loss_history. intros Hin.
  assert (Hlevel := scan_exits_levels entry_price future
                      (initial_stop_loss entry_price) level (or_introl eq_refl) Hin).
  unfold initial_stop_loss, target1, target2 in *.
  split; [exact Hlevel |].
  intros Hpos. destruct Hlevel as [-> | [-> | [-> | ->]]]; split; lra.
Qed.

Lemma stop_loss_history_levels_witness :
  In (100 * 1.01) (stop_loss_history 100 (future_data sagging_frame 0))
  /\ initial_stop_loss 100 <= 100 * 1.01 /\ 100 * 1.01 <= target2 100.
Proof.
  assert (Hin : In (100 * 1.01)
                   (stop_loss_history 100 (future_data sagging_frame 0))).
  { vm_compute. right. left. reflexivity. }
  split; [exact Hin |].
  apply (proj2 (stop_loss_history_levels 100 _ _ Hin)).
  vm_compute. discriminate.
Defined.





(** The entry the lookup returns: a row of the frame, at most two days before
    the reference date, with no row between it and the reference date. *)
Lemma get_valid_entry_date_window (df_stock : price_series)
    (week_end_date date : Z) (price : Q) :
  get_valid_entry_date df_stock week_end_date = Some (date, price) ->
  In (date, price) df_stock
  /\ (week_end_date - 2 <= date <= week_end_date)%Z
  /\ (forall d, (date < d <= week_end_date)%Z -> ~ In d (index df_stock)).
Proof.
  unfold get_valid_entry_date. rewrite possible_days_eq. simpl.
  assert (Hmiss : forall d, in_index d df_stock = false -> ~ In d (index df_stock)).
  { intros d Hout Hin. apply in_index_iff in Hin. congruence. }
  destruct (in_index week_end_date df_stock) eqn:H0.
  { destruct (loc_close_price df_stock week_end_date) as [p |] eqn:Hp;
      [| discriminate].
    intros [= <- <-]. split; [now apply loc_close_price_In |].
    split; [lia |]. intros d Hd. lia. }
  apply Hmiss in H0.
  destruct (in_index (week_end_date - 1) df_stock) eqn:H1.
  { destruct (loc_close_price df_stock (week_end_date - 1)) as [p |] eqn:Hp;
      [| discriminate].
    intros [= <- <-]. split; [now apply loc_close_price_In |].
    split; [lia |]. intros d Hd.
    assert (d = week_end_date) as -> by lia. exact H0. }
  apply Hmiss in H1.
  destruct (in_index (week_end_date - 2) df_stock) eqn:H2.
  { destruct (loc_close_price df_stock (week_end_date - 2)) as [p |] eqn:Hp;
      [| discriminate].
    intros [= <- <-]. split; [now apply loc_close_price_In |].
    split; [lia |]. intros d Hd.
    assert (d = week_end_date \/ d = (week_end_date - 1)%Z) as [-> | ->] by lia;
      assumption. }
  discriminate.
Qed.

(** X3: a returned trade belongs to its signal and to the data: it carries
    the row's symbol and metrics, its entry is a row of that symbol's frame
    dated at most two days before the week-end date and never after it, and
    its exit is a row of the same frame. *)
Theorem process_stock_provenance (row : signal_row)
    (stock_data_dict : gmap string price_series) (t : trade) :
  process_stock row stock_data_dict = Some t ->
  exists df_stock,
    stock_data_dict !! stock_symbol row = Some df_stock
    /\ t_stock t = stock_symbol row
    /\ In (entry_date t, entry_price t) df_stock
    /\ In (exit_date t, exit_price t) df_stock
    /\ (week_end_date row - 2 <= entry_date t <= week_end_date row)%Z
    /\ t_volume_multiple t = volume_multiple row
    /\ t_rsi_value t = rsi_value row
    /\ t_weekly_volume t = weekly_volume row.
Proof.
  intros H.
  destruct (process_stock_Some _ _ _ H)
    as (df_stock & e_date & e_price & x_date & x_price
        & Hdict & Hentry & Hexit & ->).
  exists df_stock. simpl.
  destruct (get_valid_entry_date_window _ _ _ _ Hentry) as (Hrow & Hwin & _).
  unfold find_exit in Hexit. apply scan_exits_found_in in Hexit.
  apply future_data_after in Hexit.
  repeat split; try assumption; try reflexivity; tauto.
Qed.

Lemma process_stock_provenance_witness :
  process_stock rising_row sample_dict = Some rising_trade
  /\ exists df_stock,
       sample_dict !! "RISE"%string = Some df_stock
       /\ In (0%Z, entry_price rising_trade) df_stock
       /\ In (5%Z, exit_price rising_trade) df_stock.
Proof.
  assert (H : process_stock rising_row sample_dict = Some rising_trade)
    by (vm_compute; reflexivity).
  split; [exact H |].
  destruct (process_stock_provenance rising_row sample_dict rising_trade H)
    as (df_stock & Hdict & _ & Hentry & Hexit & _).
  exists df_stock. split; [exact Hdict |]. split; [exact Hentry | exact Hexit].
Defined.





Lemma filter_none {A : Type} (f : A -> bool) (l : list A) :
  (forall x, In x l -> f x = false) -> List.filter f l = [].
Proof.
  induction l as [| a l IH]; simpl; intros H; [reflexivity |].
  rewrite (H a (or_introl eq_refl)). apply IH. intros x Hx. apply H. now right.
Qed.

(** X5: the candidates that are dropped for want of data.  A signal yields
    no trade when its symbol has no frame, when none of week_end_date,
    week_end_date - 1, week_end_date - 2 is in the frame's index, or when the
    frame has no row dated after week_end_date. *)
Theorem process_stock_dropped (row : signal_row)
    (stock_data_dict : gmap string price_series) :
  stock_data_dict !! stock_symbol row = None
  \/ (exists df_stock,
        stock_data_dict !! stock_symbol row = Some df_stock
        /\ ((~ In (week_end_date row) (index df_stock)
             /\ ~ In (week_end_date row - 1)%Z (index df_stock)
             /\ ~ In (week_end_date row - 2)%Z (index df_stock))
            \/ (forall d, In d (index df_stock) -> (d <= week_end_date row)%Z))) ->
  process_stock row stock_data_dict = None.
Proof.
  unfold process_stock.
  intros [-> | (df_stock & -> & Hcase)]; [reflexivity |].
  destruct (get_valid_entry_date df_stock (week_end_date row))
    as [[e_date e_price] |] eqn:Hentry; [| reflexivity].
  destruct (get_valid_entry_date_window _ _ _ _ Hentry) as (Hrow & Hwin & Hgap).
  assert (Hindex : In e_date (index df_stock)).
  { unfold index. change e_date with (fst (e_date, e_price)). now apply in_map. }
  destruct Hcase as [(H0 & H1 & H2) | Hlast].
  - exfalso.
    assert (e_date = week_end_date row \/ e_date = (week_end_date row - 1)%Z
            \/ e_date = (week_end_date row - 2)%Z) as [-> | [-> | ->]] by lia;
      contradiction.
  - assert (Hempty : future_data df_stock e_date = []).
    { unfold future_data. apply filter_none. intros [d p] Hin. simpl.
      apply Z.ltb_ge.
      assert (Hd : In d (index df_stock)).
      { unfold index. change d with (fst (d, p)). now apply in_map. }
      destruct (Z_le_gt_dec d e_date) as [Hle | Hgt]; [exact Hle |].
      exfalso. apply (Hgap d); [| exact Hd].
      specialize (Hlast d Hd). lia. }
    rewrite Hempty. reflexivity.
Qed.

Lemma process_stock_dropped_witness :
  process_stock unknown_row sample_dict = None
  /\ process_stock (mk_signal_row "RISE" 9 4 71 90000) sample_dict = None
  /\ process_stock (mk_signal_row "RISE" 5 4 71 90000) sample_dict = None.
Proof.
  split; [| split].
  - apply process_stock_dropped. left. vm_compute. reflexivity.
  - apply process_stock_dropped. right. exists rising_frame.
    split; [vm_compute; reflexivity |]. left. simpl. lia.
  - apply process_stock_dropped. right. exists rising_frame.
    split; [vm_compute; reflexivity |]. right. simpl. lia.
Defined.

(** * Further properties of the runner *)

Lemma in_produced (completed : list (option trade)) (t : trade) :
  In t (produced completed) <-> In (Some t) completed.
Proof.
  unfold produced. rewrite in_flat_map. split.
  - intros [[r |] [Hin Ht]]; simpl in Ht; [| contradiction].
    destruct Ht as [<- | []]. exact Hin.
  - intros Hin. exists (Some t). split; [exact Hin | now left].
Qed.

(** X6: the collected results are exactly the trades the candidates
    produced: a trade is in the results if and only if process_stock returned
    it for one of the completed rows. *)
Theorem run_backtest_results_membership
    (stock_data_dict : gmap string price_series)
    (completion_order : list signal_row) (t : trade) :
  In t (run_backtest_results stock_data_dict completion_order)
  <-> exists row, In row completion_order
                  /\ process_stock row stock_data_dict = Some t.
Proof.
  unfold run_backtest_results.
  rewrite collect_results_produced. simpl.
  rewrite in_produced, in_map_iff. split.
  - intros (row & Heq & Hin). now exists row.
  - intros (row & Hin & Heq). now exists row.
Qed.

Lemma length_produced (completed : list (option trade)) :
  List.length (produced completed)
  = List.length (List.filter (fun r => match r with Some _ => true | None => false end)
                             completed).
Proof.
  induction completed as [| [t |] rest IH]; simpl; [reflexivity | | exact IH].
  now rewrite IH.
Qed.

(** X7: every candidate contributes at most one trade: the number of results
    is the number of rows for which process_stock returned a trade, and so
    never exceeds the number of rows. *)
Theorem run_backtest_results_count
    (stock_data_dict : gmap string price_series)
    (completion_order : list signal_row) :
  List.length (run_backtest_results stock_data_dict completion_order)
  = List.length
      (List.filter (fun row => match process_stock row stock_data_dict with
                               | Some _ => true
                               | None => false
                               end) completion_order)
  /\ (List.length (run_backtest_results stock_data_dict completion_order)
      <= List.length completion_order)%nat.
Proof.
  unfold run_backtest_results.
  rewrite collect_results_produced. simpl. rewrite length_produced.
  assert (Hcount :
    List.length
      (List.filter (fun r : option trade => match r with Some _ => true | None => false end)
         (List.map (fun row => process_stock row stock_data_dict) completion_order))
    = List.length
        (List.filter (fun row => match process_stock row stock_data_dict with
                                 | Some _ => true
                                 | None => false
                                 end) completion_order)).
  { induction completion_order as [| row rest IH]; simpl; [reflexivity |].
    destruct (process_stock row stock_data_dict); simpl; now rewrite IH. }
  split; [exact Hcount |].
  rewrite Hcount. apply List.filter_length_le.
Qed.

(** * Further properties of the summary *)

Lemma py_round2_number (v : py_value) :
  (exists z, v = PyInt z) \/ (exists x, v = PyFloat x) ->
  exists r, py_round2 v = Returned r.
Proof.
  intros [[z ->] | [x ->]]; simpl; [eauto |].
  destruct x; eauto.
Qed.

Lemma mean_nonempty (x : Q) (l : list Q) :
  mean (x :: l)
  = Fin (Qsum (x :: l) / inject_Z (Z.of_nat (List.length (x :: l)))).
Proof. reflexivity. Qed.

Lemma mean_zero_iff (x : Q) (l : list Q) :
  is_zero (Qsum (x :: l) / inject_Z (Z.of_nat (List.length (x :: l)))) = true
  <-> Qsum (x :: l) == 0.
Proof.
  unfold is_zero. rewrite Qeq_bool_iff.
  set (n := inject_Z (Z.of_nat (List.length (x :: l)))).
  assert (Hn : ~ n == 0).
  { unfold n. simpl List.length. intros H.
    assert (Hlt : 0 < inject_Z (Z.of_nat (S (List.length l)))).
    { change 0 with (inject_Z 0). rewrite <- Zlt_Qlt. lia. }
    rewrite H in Hlt. exact (Qlt_irrefl 0 Hlt). }
  split; intros H.
  - rewrite <- (Qmult_div_r (Qsum (x :: l)) n Hn).
    unfold Qdiv in *. rewrite H. ring.
  - unfold Qdiv. rewrite H. ring.
Qed.

Ltac round_float :=
  match goal with
  | |- context [py_round2 (PyFloat ?x)] =>
      destruct (py_round2_number (PyFloat x)) as [? ->];
      [right; eexists; reflexivity |];
      cbv beta iota delta [py_bind]
  end.

(** X8: the summary is produced exactly when there is a losing trade and the
    losing trades' percentages do not sum to zero; in every other case
    (no trade, no losing trade, or only break-even losses) [round] raises
    TypeError on a sentinel and nothing is produced. *)
Theorem generate_backtest_summary_returns_iff (df : list trade) :
  ((exists s, generate_backtest_summary df = Returned s)
   <-> select Loss df <> []
       /\ ~ Qsum (List.map profit_loss_pct (select Loss df)) == 0)
  /\ ((exists s, generate_backtest_summary df = Returned s)
      \/ generate_backtest_summary df = Raised TypeError).
Proof.
  assert (Hcases :
    (select Loss df <> []
     /\ ~ Qsum (List.map profit_loss_pct (select Loss df)) == 0
     /\ exists s, generate_backtest_summary df = Returned s)
    \/ ((select Loss df = []
         \/ Qsum (List.map profit_loss_pct (select Loss df)) == 0)
        /\ generate_backtest_summary df = Raised TypeError)).
  { destruct (select Loss df) as [| l ls] eqn:Hlosses.
    { right. split; [now left |].
      now apply summary_without_losses_raises. }
    assert (Hmean : mean (List.map profit_loss_pct (l :: ls))
                    = Fin (Qsum (List.map profit_loss_pct (l :: ls))
                           / inject_Z (Z.of_nat
                               (List.length (List.map profit_loss_pct (l :: ls))))))
      by reflexivity.
    unfold generate_backtest_summary. rewrite Hlosses.
    cbv beta iota zeta. rewrite Hmean. unfold f64_truthy.
    set (win_ratio := if (Z.of_nat (List.length df) =? 0)%Z then _ else _).
    assert (Hwin : exists r, py_round2 win_ratio = Returned r).
    { apply py_round2_number. unfold win_ratio.
      destruct (Z.of_nat (List.length df) =? 0)%Z; eauto. }
    destruct Hwin as [r_win ->].
    destruct (is_zero (Qsum (List.map profit_loss_pct (l :: ls))
                       / inject_Z (Z.of_nat
                           (List.length (List.map profit_loss_pct (l :: ls))))))
      eqn:Hzero; cbv beta iota delta [py_bind negb];
      repeat round_float.
    - right. split; [| reflexivity].
      right. now apply mean_zero_iff in Hzero.
    - left. split; [discriminate |]. split; [| eauto].
      intros Hsum.
      apply (mean_zero_iff (profit_loss_pct l) (List.map profit_loss_pct ls)) in Hsum.
      pose proof (eq_trans (eq_sym Hsum) Hzero) as Habsurd. discriminate Habsurd. }
  split; [split |].
  - intros [s Hs]. destruct Hcases as [(H1 & H2 & _) | [_ Hraise]]; [tauto |].
    congruence.
  - intros [Hne Hsum]. destruct Hcases as [(_ & _ & Hret) | [[Hnil | Hzero] _]];
      [exact Hret | contradiction | contradiction].
  - destruct Hcases as [(_ & _ & Hret) | [_ Hraise]];
      [left; exact Hret | right; exact Hraise].
Qed.

Lemma py_bind_Returned {A B : Type} (m : py_result A) (k : A -> py_result B)
    (b : B) :
  py_bind m k = Returned b -> exists a, m = Returned a /\ k a = Returned b.
Proof.
  destruct m as [a | e]; simpl; [| discriminate]. intros H. now exists a.
Qed.

(** Rounding to the nearest integer stays between integer bounds. *)
Lemma round_half_even_bounds (q : Q) (a b : Z) :
  inject_Z a <= q -> q <= inject_Z b ->
  (a <= round_half_even q <= b)%Z.
Proof.
  intros Ha Hb. unfold round_half_even.
  pose proof (Qfloor_le q) as Hfloor.
  pose proof (Qlt_floor q) as Hceil.
  assert (Hlow : (a <= Qfloor q)%Z).
  { assert (Hlt : inject_Z a < inject_Z (Qfloor q + 1))
      by (eapply Qle_lt_trans; eassumption).
    rewrite <- Zlt_Qlt in Hlt. lia. }
  assert (Hhigh : (Qfloor q <= b)%Z).
  { rewrite Zle_Qle. eapply Qle_trans; eassumption. }
  assert (Hstep : 0 < q - inject_Z (Qfloor q) -> (Qfloor q + 1 <= b)%Z).
  { intros Hpos.
    assert (Hlt : inject_Z (Qfloor q) < inject_Z b) by lra.
    rewrite <- Zlt_Qlt in Hlt. lia. }
  destruct (Qcompare (q - inject_Z (Qfloor q)) (1 # 2)) eqn:Hcmp.
  - apply Qeq_alt in Hcmp.
    destruct (Z.even (Qfloor q)); [lia |].
    split; [lia |]. apply Hstep. rewrite Hcmp. reflexivity.
  - lia.
  - apply Qgt_alt in Hcmp. split; [lia |]. apply Hstep.
    eapply Qlt_trans; [| exact Hcmp]. reflexivity.
Qed.

Lemma round2_percentage (q : Q) :
  0 <= q -> q <= 100 -> 0 <= round2 q /\ round2 q <= 100.
Proof.
  intros Hlow Hhigh. unfold round2.
  destruct (round_half_even_bounds (q * 100) 0 10000) as [H0 H1].
  - change (inject_Z 0) with 0. lra.
  - change (inject_Z 10000) with 10000. lra.
  - rewrite Zle_Qle in H0, H1.
    change (inject_Z 0) with 0 in H0. change (inject_Z 10000) with 10000 in H1.
    split.
    + apply Qle_shift_div_l; [reflexivity | lra].
    + apply Qle_shift_div_r; [reflexivity | lra].
Qed.

(** X9: a summary that is produced counts every trade, covers at least one
    trade, and reports a win ratio that is a number between 0 and 100. *)
Theorem generate_backtest_summary_fields (df : list trade) (s : summary) :
  generate_backtest_summary df = Returned s ->
  total_trades s = Z.of_nat (List.length df)
  /\ (1 <= total_trades s)%Z
  /\ exists w, win_ratio_pct s = PyFloat (Fin w) /\ 0 <= w /\ w <= 100.
Proof.
  intros Hret.
  assert (Hlosses : select Loss df <> []).
  { intros Hnone. rewrite (summary_without_losses_raises df Hnone) in Hret.
    discriminate. }
  assert (Hlen : (1 <= List.length df)%nat).
  { destruct df; [now contradiction Hlosses | simpl; lia]. }
  unfold generate_backtest_summary in Hret.
  cbv beta zeta in Hret.
  destruct (Z.eqb_spec (Z.of_nat (List.length df)) 0) as [Hzero | _]; [lia |].
  repeat match type of Hret with
  | py_bind _ _ = Returned _ =>
      apply py_bind_Returned in Hret;
      let r := fresh "r" in
      let Hr := fresh "Hr" in
      destruct Hret as (r & Hr & Hret)
  end.
  injection Hret as <-. simpl.
  split; [reflexivity |]. split; [lia |].
  simpl in Hr. injection Hr as <-.
  eexists. split; [reflexivity |].
  apply round2_percentage.
  - apply Qmult_le_0_compat; [| discriminate].
    apply Qle_shift_div_l.
    + change 0 with (inject_Z 0). rewrite <- Zlt_Qlt. lia.
    + rewrite Qmult_0_l. change 0 with (inject_Z 0). rewrite <- Zle_Qle. lia.
  - assert (Hratio : inject_Z (Z.of_nat (List.length (select Profit df)))
                     / inject_Z (Z.of_nat (List.length df)) <= 1).
    { apply Qle_shift_div_r.
      - change 0 with (inject_Z 0). rewrite <- Zlt_Qlt. lia.
      - rewrite Qmult_1_l. rewrite <- Zle_Qle.
        apply inj_le. unfold select. apply List.filter_length_le. }
    lra.
Qed.

Lemma generate_backtest_summary_fields_witness :
  exists s w,
    generate_backtest_summary [falling_trade; rising_trade] = Returned s
    /\ total_trades s = 2%Z
    /\ win_ratio_pct s = PyFloat (Fin w) /\ 0 <= w /\ w <= 100.
Proof.
  destruct (generate_backtest_summary [falling_trade; rising_trade])
    as [s | e] eqn:Hrun; [| vm_compute in Hrun; discriminate].
  destruct (generate_backtest_summary_fields _ s Hrun)
    as (Htotal & _ & w & Hw & Hlow & Hhigh).
  exists s, w. split; [reflexivity |]. split; [exact Htotal |].
  split; [exact Hw |]. split; [exact Hlow | exact Hhigh].
Defined.

(** * Properties of the loader and of a whole run *)

Lemma in_unique (symbols : list string) (s : string) :
  In s (unique symbols) <-> In s symbols.
Proof.
  induction symbols as [| x rest IH]; simpl; [reflexivity |].
  rewrite filter_In, IH, negb_true_iff, String.eqb_neq.
  destruct (String.eqb_spec s x) as [-> | Hne].
  - split; intros _; now left.
  - split; intros [Heq | H]; try (now subst); right; tauto.
Qed.

Lemma lookup_keyed_map {V : Type} (f : string -> V) (keys : list string)
    (k : string) :
  (In k keys ->
   (list_to_map (List.map (fun s => (s, f s)) keys) : gmap string V) !! k
   = Some (f k))
  /\ (~ In k keys ->
      (list_to_map (List.map (fun s => (s, f s)) keys) : gmap string V) !! k
      = None).
Proof.
  induction keys as [| x rest [IHin IHout]]; simpl.
  - split; [contradiction | intros _; apply lookup_empty].
  - destruct (decide (x = k)) as [-> | Hne].
    + split; [intros _; apply lookup_insert_eq | intros H; exfalso; apply H; now left].
    + rewrite lookup_insert_ne by exact Hne. split.
      * intros [Heq | Hin]; [contradiction | now apply IHin].
      * intros Hout. apply IHout. intros Hin. apply Hout. now right.
Qed.

Lemma in_xs (symbol : string) (rows : list stock_data_row) (date : Z) (price : Q) :
  In (date, price) (xs symbol rows)
  <-> In (mk_stock_data_row symbol date price) rows.
Proof.
  unfold xs. rewrite in_map_iff. split.
  - intros ([s d p] & [= <- <-] & Hin). apply filter_In in Hin.
    destruct Hin as [Hin Hs]. simpl in Hs. apply String.eqb_eq in Hs. now subst.
  - intros Hin. exists (mk_stock_data_row symbol date price).
    split; [reflexivity |]. apply filter_In. split; [exact Hin |].
    simpl. apply String.eqb_refl.
Qed.

(** X10: the dictionary has one frame per symbol of the query result and
    nothing else: a symbol that occurs is mapped to its own rows (date and
    close, in the order of the result), a symbol that does not occur is
    absent, and no frame is empty. *)
Theorem build_stock_data_dict_lookup (rows : list stock_data_row)
    (symbol : string) :
  match build_stock_data_dict rows !! symbol with
  | Some df_stock =>
      In symbol (List.map sd_symbol rows)
      /\ df_stock = xs symbol rows
      /\ df_stock <> []
      /\ (forall date price,
            In (date, price) df_stock
            <-> In (mk_stock_data_row symbol date price) rows)
  | None => ~ In symbol (List.map sd_symbol rows)
  end.
Proof.
  unfold build_stock_data_dict.
  destruct (lookup_keyed_map (fun s => xs s rows)
              (unique (List.map sd_symbol rows)) symbol) as [Hin Hout].
  destruct (in_dec string_dec symbol (List.map sd_symbol rows)) as [Hsym | Hsym].
  - rewrite Hin by now apply in_unique.
    split; [exact Hsym |]. split; [reflexivity |]. split.
    + apply in_map_iff in Hsym. destruct Hsym as ([s d p] & Hs & Hrow).
      simpl in Hs. subst s.
      apply (in_xs symbol rows d p) in Hrow.
      intros Hnil. rewrite Hnil in Hrow. exact Hrow.
    + intros date price. apply in_xs.
  - rewrite Hout; [exact Hsym |]. now rewrite in_unique.
Qed.

Lemma xs_increasing (symbol : string) (rows : list stock_data_row) :
  ordered_by_date rows -> increasing_index (xs symbol rows).
Proof.
  unfold ordered_by_date, increasing_index, xs.
  induction 1 as [| r rest Hsorted IH Hall]; simpl; [constructor |].
  destruct (String.eqb_spec (sd_symbol r) symbol) as [Hs | Hs]; [| exact IH].
  simpl. constructor; [exact IH |].
  rewrite List.Forall_forall in *. intros [d p] Hin.
  apply in_map_iff in Hin. destruct Hin as (r' & [= <- <-] & Hin').
  apply filter_In in Hin'. destruct Hin' as [Hin' Hs'].
  simpl. apply (Hall r' Hin').
  apply String.eqb_eq in Hs'. congruence.
Qed.

Lemma increasing_index_NoDup (df_stock : price_series) :
  increasing_index df_stock -> List.NoDup (index df_stock).
Proof.
  unfold increasing_index.
  induction 1 as [| r rest Hsorted IH Hall]; simpl; constructor; [| exact IH].
  intros Hin. apply in_map_iff in Hin. destruct Hin as (r' & Heq & Hin').
  rewrite List.Forall_forall in Hall. specialize (Hall r' Hin'). lia.
Qed.

(** X11: when the query result is in the order the query asks for (within a
    symbol, dates strictly increasing), every frame of the dictionary has a
    strictly increasing, hence duplicate-free, date index. *)
Theorem build_stock_data_dict_frames_ordered (rows : list stock_data_row)
    (symbol : string) (df_stock : price_series) :
  ordered_by_date rows ->
  build_stock_data_dict rows !! symbol = Some df_stock ->
  increasing_index df_stock /\ List.NoDup (index df_stock).
Proof.
  intros Hordered Hlookup.
  assert (Hframe : df_stock = xs symbol rows).
  { unfold build_stock_data_dict in Hlookup.
    destruct (lookup_keyed_map (fun s => xs s rows)
                (unique (List.map sd_symbol rows)) symbol) as [Hin Hout].
    destruct (in_dec string_dec symbol (unique (List.map sd_symbol rows)))
      as [Hsym | Hsym].
    - rewrite (Hin Hsym) in Hlookup. now injection Hlookup.
    - rewrite (Hout Hsym) in Hlookup. discriminate. }
  subst df_stock.
  pose proof (xs_increasing symbol rows Hordered) as Hinc.
  split; [exact Hinc | now apply increasing_index_NoDup].
Qed.

Lemma sample_stock_rows_ordered : ordered_by_date sample_stock_rows.
Proof.
  unfold ordered_by_date, sample_stock_rows.
  repeat (apply SSorted_cons;
          [| repeat (apply List.Forall_cons;
                     [simpl; intros Hs; first [lia | discriminate Hs] |]);
             apply List.Forall_nil]).
  apply SSorted_nil.
Qed.

Lemma build_stock_data_dict_frames_ordered_witness :
  ordered_by_date sample_stock_rows
  /\ build_stock_data_dict sample_stock_rows !! "RISE"%string = Some rising_frame
  /\ increasing_index rising_frame
  /\ List.NoDup (index rising_frame).
Proof.
  assert (Hlookup : build_stock_data_dict sample_stock_rows !! "RISE"%string
                    = Some rising_frame) by (vm_compute; reflexivity).
  split; [exact sample_stock_rows_ordered |]. split; [exact Hlookup |].
  exact (build_stock_data_dict_frames_ordered sample_stock_rows "RISE" rising_frame
           sample_stock_rows_ordered Hlookup).
Defined.

(** X12: a run in which no completed candidate ends as a Loss, in particular
    a run that produces no trade at all, writes its detailed results and then
    fails with TypeError instead of writing a summary. *)
Theorem run_backtest_without_losses_fails (stock_rows : list stock_data_row)
    (high_vol_weeks : list signal_row)
    (completion_order : list signal_row -> list signal_row) :
  (forall row t,
      In row (completion_order high_vol_weeks) ->
      process_stock row (build_stock_data_dict stock_rows) = Some t ->
      profit_or_loss t = Profit) ->
  run_backtest (Some stock_rows) (Some high_vol_weeks) completion_order
  = Completed
      (run_backtest_results (build_stock_data_dict stock_rows)
                            (completion_order high_vol_weeks))
      (Raised TypeError).
Proof.
  intros Hwins. unfold run_backtest. simpl. f_equal.
  apply summary_without_losses_raises.
  unfold select. apply filter_none. intros t Ht.
  unfold run_backtest_results in Ht.
  rewrite collect_results_produced in Ht. simpl in Ht.
  apply in_produced in Ht. apply in_map_iff in Ht.
  destruct Ht as (row & Hrow & Hin).
  now rewrite (Hwins row t Hin Hrow).
Qed.

Lemma run_backtest_without_losses_fails_witness :
  run_backtest (Some sample_stock_rows) (Some [rising_row; unknown_row]) (@rev _)
  = Completed [rising_trade] (Raised TypeError)
  /\ run_backtest (Some sample_stock_rows) (Some []) (fun rows => rows)
     = Completed [] (Raised TypeError).
Proof.
  split.
  - rewrite run_backtest_without_losses_fails.
    + vm_compute. reflexivity.
    + intros row t [<- | [<- | []]]; vm_compute; intros [= <-]; reflexivity.
  - rewrite run_backtest_without_losses_fails.
    + reflexivity.
    + intros row t [].
Defined.

(** * How the stop-loss can move from one day to the next *)

Lemma update_stop_loss_open (entry_price stop_loss price : Q) :
  open_level entry_price stop_loss ->
  exit_condition entry_price (update_stop_loss entry_price stop_loss price) price
  = false ->
  open_level entry_price (update_stop_loss entry_price stop_loss price).
Proof.
  unfold exit_condition, update_stop_loss, open_level.
  intros Hstart Hopen. apply orb_false_iff in Hopen. destruct Hopen as [_ H3].
  rewrite H3 in *.
  destruct (Qgeb price (target2 entry_price)); [auto |].
  destruct (Qgeb price (target1 entry_price)); auto.
Qed.

Lemma scan_exits_consecutive (entry_price : Q) (future : price_series) :
  forall stop_loss before a b after,
    open_level entry_price stop_loss ->
    fst (scan_exits entry_price stop_loss future) = before ++ a :: b :: after ->
    open_level entry_price a
    /\ exists price, b = update_stop_loss entry_price a price.
Proof.
  induction future as [| [d p] rest IH];
    intros stop_loss before a b after Hstart; simpl.
  - destruct before; discriminate.
  - destruct (exit_condition _ _ p) eqn:Hexit.
    + simpl. destruct before as [| x [| y before]]; discriminate.
    + pose proof (update_stop_loss_open _ _ _ Hstart Hexit) as Hnext.
      destruct (scan_exits entry_price _ rest) as [history found] eqn:Hscan.
      simpl. destruct before as [| x before]; simpl; intros [= Hhead Htail].
      * subst a. split; [exact Hnext |].
        destruct rest as [| [d1 p1] rest']; simpl in Hscan.
        -- injection Hscan as <- _. discriminate.
        -- exists p1.
           destruct (exit_condition _ _ p1).
           ++ injection Hscan as <- _. now injection Htail.
           ++ destruct (scan_exits entry_price _ rest').
              injection Hscan as <- _. now injection Htail.
      * apply (IH _ before a b after Hnext). now rewrite Hscan.
Qed.

(** X13: the one way the stop-loss goes down.  With a positive entry price,
    whenever the level of a day is below the level of the day before, the
    earlier level was target1 (entry_price * 1.15) and the later one is
    entry_price * 1.01; no other downward move occurs, so once raised the
    stop-loss never returns below entry_price * 1.01. *)
Theorem stop_loss_history_only_drop (entry_price : Q) (future : price_series)
    (before after : list Q) (a b : Q) :
  stop_loss_history entry_price future = before ++ a :: b :: after ->
  0 < entry_price ->
  b < a ->
  a = entry_price * 1.15 /\ b = entry_price * 1.01.
Proof.
  unfold stop_loss_history. intros Hhistory Hpos Hdrop.
  destruct (scan_exits_consecutive entry_price future _ before a b after
              (or_introl eq_refl) Hhistory) as [Ha [price Hb]].
  destruct (update_stop_loss_levels entry_price a price) as [Hb' | Hb'];
    rewrite <- Hb in Hb'.
  - exfalso. rewrite Hb' in Hdrop. exact (Qlt_irrefl a Hdrop).
  - unfold open_level, initial_stop_loss, target1, target2 in *.
    destruct Ha as [-> | [-> | ->]]; destruct Hb' as [-> | [-> | ->]];
      try (split; reflexivity); exfalso; lra.
Qed.

Lemma stop_loss_history_only_drop_witness :
  stop_loss_history 100 [(1%Z, 130); (2%Z, 120)] = [] ++ [100 * 1.15; 100 * 1.01]
  /\ 0 < 100 /\ 100 * 1.01 < 100 * 1.15.
Proof.
  assert (Hhistory : stop_loss_history 100 [(1%Z, 130); (2%Z, 120)]
                     = [] ++ 100 * 1.15 :: 100 * 1.01 :: [])
    by (vm_compute; reflexivity).
  assert (Hpos : 0 < 100) by reflexivity.
  assert (Hdrop : 100 * 1.01 < 100 * 1.15) by reflexivity.
  pose proof (stop_loss_history_only_drop 100 _ [] [] _ _ Hhistory Hpos Hdrop)
    as Hshape.
  split; [exact Hhistory |]. split; [exact Hpos | exact Hdrop].
Defined.

(** * The relative strength index *)

Lemma fold_left_Qplus_nonneg (l : list Q) :
  forall acc, 0 <= acc -> Forall (fun x => 0 <= x) l -> 0 <= fold_left Qplus l acc.
Proof.
  induction l as [| x l IH]; intros acc Hacc Hall; simpl; [exact Hacc |].
  apply List.Forall_cons_iff in Hall. destruct Hall as [Hx Hall].
  apply IH; [| exact Hall]. lra.
Qed.

Lemma mean_nonneg (l : list Q) (x : float64) :
  Forall (fun q => 0 <= q) l -> mean l = x ->
  x = NaN \/ exists m, x = Fin m /\ 0 <= m.
Proof.
  intros Hall <-. destruct l as [| q l]; [now left |].
  right. eexists. split; [reflexivity |].
  apply Qle_shift_div_l.
  - change 0 with (inject_Z 0). rewrite <- Zlt_Qlt. simpl List.length. lia.
  - rewrite Qmult_0_l. unfold Qsum. apply fold_left_Qplus_nonneg;
      [apply Qle_refl | exact Hall].
Qed.

Lemma Forall_firstn {A : Type} (P : A -> Prop) (n : nat) (l : list A) :
  Forall P l -> Forall P (firstn n l).
Proof.
  intros Hall. revert n.
  induction Hall as [| a l Ha Hl IH]; intros [| n]; simpl;
    constructor; auto.
Qed.

Lemma rolling_mean_from_nonneg (window : nat) (values : list Q) :
  forall recent x,
    Forall (fun q => 0 <= q) recent ->
    Forall (fun q => 0 <= q) values ->
    In x (rolling_mean_from window recent values) ->
    x = NaN \/ exists m, x = Fin m /\ 0 <= m.
Proof.
  induction values as [| v rest IH]; intros recent x Hrecent Hvalues; simpl;
    [contradiction |].
  apply List.Forall_cons_iff in Hvalues. destruct Hvalues as [Hv Hrest].
  assert (Hnext : Forall (fun q => 0 <= q) (firstn window (v :: recent))).
  { apply Forall_firstn. now constructor. }
  intros [Hx | Hin].
  - destruct (Nat.eqb _ window); [| now left].
    now apply (mean_nonneg _ x Hnext).
  - now apply (IH _ x Hnext Hrest).
Qed.

Lemma length_rolling_mean_from (window : nat) (values : list Q) :
  forall recent,
    List.length (rolling_mean_from window recent values) = List.length values.
Proof.
  induction values as [| v rest IH]; intros recent; simpl; [reflexivity |].
  now rewrite IH.
Qed.

Lemma f64_div_nonneg (g l : Q) :
  0 <= g -> 0 <= l ->
  f64_div (Fin g) (Fin l) = NaN
  \/ f64_div (Fin g) (Fin l) = Inf false
  \/ exists r, f64_div (Fin g) (Fin l) = Fin r /\ 0 <= r.
Proof.
  intros Hg Hl. unfold f64_div.
  destruct (is_zero l) eqn:Hzl.
  - destruct (is_zero g); [now left |].
    right. left.
    assert (Hsign : Qgtb 0 g = false).
    { destruct (Qgtb 0 g) eqn:Hgt; [| reflexivity].
      apply Qgtb_iff in Hgt. exfalso. lra. }
    now rewrite Hsign.
  - right. right. eexists. split; [reflexivity |].
    unfold is_zero in Hzl.
    apply not_true_iff_false in Hzl. rewrite Qeq_bool_iff in Hzl.
    assert (Hlpos : 0 < l).
    { apply Qle_lt_or_eq in Hl. destruct Hl as [Hl | Hl]; [exact Hl |].
      exfalso. apply Hzl. now symmetry. }
    apply Qle_shift_div_l; [exact Hlpos | lra].
Qed.

Lemma rsi_of_range (gain loss : float64) :
  (gain = NaN \/ exists g, gain = Fin g /\ 0 <= g) ->
  (loss = NaN \/ exists l, loss = Fin l /\ 0 <= l) ->
  rsi_of gain loss = NaN
  \/ exists r, rsi_of gain loss = Fin r /\ 0 <= r /\ r <= 100.
Proof.
  intros [-> | (g & -> & Hg)] [-> | (l & -> & Hl)]; try (now left).
  unfold rsi_of.
  destruct (f64_div_nonneg g l Hg Hl) as [-> | [-> | (r & -> & Hr)]].
  - now left.
  - right. simpl. eexists. split; [reflexivity |].
    split; discriminate.
  - right. simpl f64_add. unfold f64_div.
    assert (Hden : 1 <= 1 + r) by lra.
    assert (Hnz : is_zero (1 + r) = false).
    { unfold is_zero. apply not_true_iff_false. rewrite Qeq_bool_iff.
      intros H. rewrite H in Hden. revert Hden. apply Qlt_not_le. reflexivity. }
    rewrite Hnz. simpl. eexists. split; [reflexivity |].
    assert (Hq : 0 <= 100 / (1 + r) /\ 100 / (1 + r) <= 100).
    { split.
      - apply Qle_shift_div_l; lra.
      - apply Qle_shift_div_r; lra. }
    lra.
Qed.

Lemma where_or_zero_gain_nonneg (x : float64) :
  0 <= where_or_zero (fun q => Qgtb q 0) x.
Proof.
  destruct x as [q | |]; simpl; try apply Qle_refl.
  destruct (Qgtb q 0) eqn:Hgt; [| apply Qle_refl].
  apply Qgtb_iff in Hgt. now apply Qlt_le_weak.
Qed.

Lemma where_or_zero_loss_nonneg (x : float64) :
  0 <= - where_or_zero (fun q => Qgtb 0 q) x.
Proof.
  destruct x as [q | |]; simpl; try discriminate.
  destruct (Qgtb 0 q) eqn:Hgt; [| discriminate].
  apply Qgtb_iff in Hgt. lra.
Qed.

(** X14: calculate_rsi returns one value per price, and every value is
    either NaN or a number between 0 and 100. *)
Theorem calculate_rsi_range (prices : list Q) (window : nat) :
  List.length (calculate_rsi prices window) = List.length prices
  /\ (forall x, In x (calculate_rsi prices window) ->
                x = NaN \/ exists r, x = Fin r /\ 0 <= r /\ r <= 100).
Proof.
  unfold calculate_rsi, rolling_mean. split.
  - rewrite length_map, length_combine, !length_rolling_mean_from, !length_map.
    rewrite Nat.min_id.
    destruct prices as [| p rest]; [reflexivity |]. simpl. f_equal.
    revert p. induction rest as [| q rest IH]; intros p; simpl;
      [reflexivity | now rewrite IH].
  - intros x Hin.
    apply in_map_iff in Hin. destruct Hin as ([gain loss] & <- & Hpair).
    simpl. apply rsi_of_range.
    + apply in_combine_l in Hpair.
      apply (rolling_mean_from_nonneg _ _ _ _ (List.Forall_nil _)) in Hpair;
        [exact Hpair |].
      apply List.Forall_forall. intros q Hq. apply in_map_iff in Hq.
      destruct Hq as (d & <- & _). apply where_or_zero_gain_nonneg.
    + apply in_combine_r in Hpair.
      apply (rolling_mean_from_nonneg _ _ _ _ (List.Forall_nil _)) in Hpair;
        [exact Hpair |].
      apply List.Forall_forall. intros q Hq. apply in_map_iff in Hq.
      destruct Hq as (d & <- & _). apply where_or_zero_loss_nonneg.
Qed.

Lemma calculate_rsi_range_witness :
  List.length (calculate_rsi [10; 11; 12; 11; 13] 3) = 5%nat
  /\ In (Fin (900 # 12)) (calculate_rsi [10; 11; 12; 11; 13] 3)
  /\ exists r, Fin (900 # 12) = Fin r /\ 0 <= r /\ r <= 100.
Proof.
  destruct (calculate_rsi_range [10; 11; 12; 11; 13] 3) as [Hlength Hrange].
  assert (Hin : In (Fin (900 # 12)) (calculate_rsi [10; 11; 12; 11; 13] 3)).
  { vm_compute. do 4 right. left. reflexivity. }
  split; [exact Hlength |]. split; [exact Hin |].
  destruct (Hrange _ Hin) as [Hnan | Hnum]; [discriminate Hnan | exact Hnum].
Defined.

(** * From the query result to the trade *)

Lemma build_stock_data_dict_Some (rows : list stock_data_row) (symbol : string)
    (df_stock : price_series) :
  build_stock_data_dict rows !! symbol = Some df_stock ->
  df_stock = xs symbol rows.
Proof.
  unfold build_stock_data_dict. intros Hlookup.
  destruct (lookup_keyed_map (fun s => xs s rows)
              (unique (List.map sd_symbol rows)) symbol) as [Hin Hout].
  destruct (in_dec string_dec symbol (unique (List.map sd_symbol rows)))
    as [Hsym | Hsym].
  - rewrite (Hin Hsym) in Hlookup. now injection Hlookup.
  - rewrite (Hout Hsym) in Hlookup. discriminate.
Qed.

(** X15: on a query result in the order the query asks for, the prices of a
    returned trade are the stored closes: the result holds a row of the
    signal's symbol with the trade's entry date and entry price and one with
    its exit date and exit price, and no row of that symbol gives either date
    another close. *)
Theorem process_stock_prices_from_rows (rows : list stock_data_row)
    (row : signal_row) (t : trade) :
  ordered_by_date rows ->
  process_stock row (build_stock_data_dict rows) = Some t ->
  In (mk_stock_data_row (stock_symbol row) (entry_date t) (entry_price t)) rows
  /\ In (mk_stock_data_row (stock_symbol row) (exit_date t) (exit_price t)) rows
  /\ (forall p, In (mk_stock_data_row (stock_symbol row) (entry_date t) p) rows ->
                p = entry_price t)
  /\ (forall p, In (mk_stock_data_row (stock_symbol row) (exit_date t) p) rows ->
                p = exit_price t).
Proof.
  intros Hordered H.
  destruct (process_stock_Some _ _ _ H)
    as (df_stock & e_date & e_price & x_date & x_price
        & Hdict & Hentry & Hexit & ->).
  simpl. apply build_stock_data_dict_Some in Hdict. subst df_stock.
  pose proof (increasing_index_NoDup _ (xs_increasing (stock_symbol row) rows Hordered))
    as Hunique.
  destruct (get_valid_entry_date_window _ _ _ _ Hentry) as (Hrow & _ & _).
  unfold find_exit in Hexit. apply scan_exits_found_in in Hexit.
  apply future_data_after in Hexit. destruct Hexit as [_ Hxrow].
  split; [now apply in_xs |]. split; [now apply in_xs |]. split.
  - intros p Hp. apply in_xs in Hp.
    exact (unique_index_row _ _ _ _ Hunique Hp Hrow).
  - intros p Hp. apply in_xs in Hp.
    exact (unique_index_row _ _ _ _ Hunique Hp Hxrow).
Qed.

Lemma process_stock_prices_from_rows_witness :
  ordered_by_date sample_stock_rows
  /\ process_stock rising_row (build_stock_data_dict sample_stock_rows)
     = Some rising_trade
  /\ In (mk_stock_data_row "RISE" 0 (entry_price rising_trade)) sample_stock_rows
  /\ In (mk_stock_data_row "RISE" 5 (exit_price rising_trade)) sample_stock_rows.
Proof.
  assert (H : process_stock rising_row (build_stock_data_dict sample_stock_rows)
              = Some rising_trade) by (vm_compute; reflexivity).
  destruct (process_stock_prices_from_rows sample_stock_rows rising_row rising_trade
              sample_stock_rows_ordered H) as (Hentry & Hexit & _ & _).
  split; [exact sample_stock_rows_ordered |]. split; [exact H |].
  split; [exact Hentry | exact Hexit].
Defined.



